(** * postgresql_tune: the tuning rules of [postgresql_tune.py]

    A shallow embedding of [postgres_settings], its inner [format_value]
    and [kernel_settings], and the properties of the tuning rules.

    The module is Python 2 code ([dict.iteritems]): [/] on two integers is
    floor division, [math.floor] returns a float, and a float mixed with
    an integer makes a float.  A float is a rational ([Q]).  An int that
    becomes a float is rounded to the nearest double, ties to even: an
    integer above 2^53 need not be a double.  The exponent of a double is
    not bounded here, and the product or the quotient of two floats is
    kept exact: on doubles a product or a quotient by a power of two is
    exact within the range of the exponent, and the one other quotient
    the properties read, [3 * shared_buffers / 100], is read through
    [math.floor] and a cap at 16384 only. *)

From Stdlib Require Import ZArith QArith Qround DecimalString Lia.
From stdpp Require Import base gmap strings.

Close Scope Q_scope.
Open Scope string_scope.
Open Scope Z_scope.

(** ** Python numbers *)

Module Py.

(** An [int] or a [float]. *)
Inductive num : Type :=
| Int (z : Z)
| Float (q : Q).

(** The value of a number, exact for an int of any size: comparisons
    between an int and a float compare the values. *)
Definition val (n : num) : Q :=
  match n with
  | Int z => inject_Z z
  | Float q => q
  end.

(** The double nearest to an integer, ties to even: below 2^53 the
    integer itself, above it a multiple of [2^e] with a quotient of 53
    bits.  The exponent is not bounded here: from 2^1024 on Python has no
    double and raises [OverflowError], so the statements about rounded
    values stay below 2^1024. *)
Definition nearest_double (z : Z) : Z :=
  let a := Z.abs z in
  if a <? 2 ^ 53 then z
  else
    let e := Z.log2 a - 52 in
    let q := a / 2 ^ e in
    let r := a mod 2 ^ e in
    let up := (2 ^ (e - 1) <? r) || ((r =? 2 ^ (e - 1)) && Z.odd q) in
    Z.sgn z * ((if up then q + 1 else q) * 2 ^ e).

(** [float(a)]: the float an operand of float arithmetic becomes. *)
Definition to_float (n : num) : Q :=
  match n with
  | Int z => inject_Z (nearest_double z)
  | Float q => q
  end.

(** [a * b] *)
Definition mul (a b : num) : num :=
  match a, b with
  | Int x, Int y => Int (x * y)
  | _, _ => Float (to_float a * to_float b)
  end.

(** [a - b] *)
Definition sub (a b : num) : num :=
  match a, b with
  | Int x, Int y => Int (x - y)
  | _, _ => Float (to_float a - to_float b)
  end.

(** [a / b] for a divisor that is not zero: floor division on two
    integers, true division as soon as one side is a float. *)
Definition div (a b : num) : num :=
  match a, b with
  | Int x, Int y => Int (x / y)
  | _, _ => Float (to_float a / to_float b)
  end.

(** [a % b] for a positive [b]. *)
Definition mod_ (a b : num) : num :=
  match a, b with
  | Int x, Int y => Int (x mod y)
  | _, _ =>
      Float (to_float a
             - to_float b * inject_Z (Qfloor (to_float a / to_float b)))
  end.

(** [math.floor(a)]: a float in Python 2; an int is converted first. *)
Definition floor (a : num) : num := Float (inject_Z (Qfloor (to_float a))).

(** [int(a)]: truncation towards zero. *)
Definition int (a : num) : num :=
  match a with
  | Int z => Int z
  | Float q => Int (Z.quot (Qnum q) (Zpos (Qden q)))
  end.

(** Comparisons compare the numeric values, whatever the two types. *)
Definition le (a b : num) : bool := Qle_bool (val a) (val b).
Definition lt (a b : num) : bool := negb (Qle_bool (val b) (val a)).
Definition ge (a b : num) : bool := le b a.
Definition gt (a b : num) : bool := lt b a.
Definition eq (a b : num) : bool := Qeq_bool (val a) (val b).

(** Decimal rendering of an integer, as [str] does. *)
Definition str_int (z : Z) : string := NilZero.string_of_int (Z.to_int z).

(** The fractional digits of [r / d], for [0 <= r < d], while a remainder
    is left and at most [fuel] of them. *)
Fixpoint frac_digits (fuel : nat) (r d : Z) : string :=
  match fuel with
  | O => ""
  | S fuel' =>
      if (r =? 0)%Z then ""
      else str_int (10 * r / d) +:+ frac_digits fuel' (10 * r mod d) d
  end.

(** Rendering of a float: the integral part, a point, and the decimal
    expansion of the rest ([5.0], [0.7]).  Python prints at most twelve
    significant digits and rounds the last; the expansion is cut there
    without rounding, which is exact for the short decimals used here. *)
Definition str_float (q : Q) : string :=
  let n := Z.abs (Qnum q) in
  let d := Zpos (Qden q) in
  let frac := frac_digits 12 (n mod d) d in
  (if (Qnum q <? 0)%Z then "-" else "")
    +:+ str_int (n / d) +:+ "." +:+ (if String.eqb frac "" then "0" else frac).

(** ["{0}".format(a)] *)
Definition str (a : num) : string :=
  match a with
  | Int z => str_int z
  | Float q => str_float q
  end.

End Py.

Import Py.

(** ** Exceptions and standard output *)

Inductive exn : Type :=
| KeyError (key : string)
| ZeroDivisionError.

Inductive outcome (A : Type) : Type :=
| Return (a : A)
| Raise (e : exn).
Arguments Return {A} a.
Arguments Raise {A} e.

(** A computation: the lines it printed, and how it ended.  The lines
    printed before an exception stay printed. *)
Definition M (A : Type) : Type := list string * outcome A.

Definition ret {A} (a : A) : M A := ([], Return a).
Definition raise {A} (e : exn) : M A := ([], Raise e).
Definition print (line : string) : M unit := ([line], Return tt).

Definition bind {A B} (m : M A) (f : A -> M B) : M B :=
  match m with
  | (out, Return a) => let (out', r) := f a in ((out ++ out')%list, r)
  | (out, Raise e) => (out, Raise e)
  end.

Notation "'do' x <- m ; k" := (bind m (fun x => k))
  (at level 10, x name, m at level 100, k at level 200, only parsing).

(** [d[key]] *)
Definition getitem {V} (d : gmap string V) (key : string) : M V :=
  match d !! key with
  | Some v => ret v
  | None => raise (KeyError key)
  end.

(** [key in d] *)
Definition contains {V} (d : gmap string V) (key : string) : bool :=
  bool_decide (is_Some (d !! key)).

(** [a / b] where [b] is computed: zero raises. *)
Definition checked_div (a b : num) : M num :=
  if Py.eq b (Int 0) then raise ZeroDivisionError else ret (div a b).

(** ** The module's constants *)

(** [CONST_SIZE] is only read at literal keys; each entry is a constant. *)
Module CONST_SIZE.
Definition KB : num := Int 1024.
Definition MB : num := Int 1048576.
Definition GB : num := Int 1073741824.
Definition TB : num := Int 1099511627776.
Definition KB_PER_GB : num := Int 1048576.
Definition KB_PER_MB : num := Int 1024.
End CONST_SIZE.

Definition CON_BY_TYPE : gmap string num :=
  {[ "web" := Int 200;
     "oltp" := Int 300;
     "dw" := Int 20;
     "desktop" := Int 5;
     "mixed" := Int 100 ]}.

(** ** kernel_settings *)

Definition kernel_settings
    (db_version : Q) (os_type db_type : string) (total_memory : Z)
  : gmap string num :=
  if String.eqb os_type "windows" || gt (Float db_version) (Float (93 # 10))
  then ∅
  else
    let shmall := floor (div (Int total_memory) (Int 8192)) in
    {[ "kernel.shmmax" := int (mul shmall (Int 4096));
       "kernel.shmall" := int shmall ]}.

(** ** postgres_settings *)

(** [not max_connections or max_connections < 1 or max_connections > 9999]:
    [None] and [0] are both false values. *)
Definition max_connections_rejected (max_connections : option Z) : bool :=
  match max_connections with
  | None => true
  | Some n => (n =? 0) || lt (Int n) (Int 1) || gt (Int n) (Int 9999)
  end.

Definition low_memory_notice : string :=
  "# WARNING: not optimal for very high memory systems".
Definition high_memory_notice : string :=
  "# WARNING: not optimal for very high memory systems".

(** The body of [postgres_settings] up to the comment [format size
    values]: the configuration with its numbers not yet formatted. *)
Definition postgres_config
    (db_version : Q) (os_type db_type : string) (total_memory : Z)
    (max_connections : option Z)
  : M (gmap string num) :=
  let config : gmap string num := ∅ in
  (* validate max_connections *)
  do config <-
    (if max_connections_rejected max_connections then
       do c <- getitem CON_BY_TYPE db_type ;
       ret (<["max_connections" := c]> config)
     else
       ret (<["max_connections" :=
                match max_connections with Some n => Int n | None => Int 0 end]>
              config)) ;
  let memory_in_KB := div (Int total_memory) CONST_SIZE.KB in
  (* this tool not being optimal for low memory systems *)
  do config <-
    (if ge (Int total_memory) (mul (Int 256) CONST_SIZE.MB) then
       (* shared_buffers *)
       do v <- getitem
              {[ "web" := floor (div memory_in_KB (Int 4));
                 "oltp" := floor (div memory_in_KB (Int 4));
                 "dw" := floor (div memory_in_KB (Int 4));
                 "desktop" := floor (div memory_in_KB (Int 16));
                 "mixed" := floor (div memory_in_KB (Int 4)) ]} db_type ;
       let config := <["shared_buffers" := v]> config in
       (* limit shared_buffers to 512MB on Windows *)
       do clamp <-
         (if String.eqb os_type "windows" then
            do sb <- getitem config "shared_buffers" ;
            ret (gt sb (div (mul (Int 512) CONST_SIZE.MB) CONST_SIZE.KB))
          else ret false) ;
       let config :=
         if clamp
         then <["shared_buffers" :=
                  div (mul (Int 512) CONST_SIZE.MB) CONST_SIZE.KB]> config
         else config in
       (* effective_cache_size *)
       do v <- getitem
              {[ "web" := floor (div (mul memory_in_KB (Int 3)) (Int 4));
                 "oltp" := floor (div (mul memory_in_KB (Int 3)) (Int 4));
                 "dw" := floor (div (mul memory_in_KB (Int 3)) (Int 4));
                 "desktop" := floor (div memory_in_KB (Int 4));
                 "mixed" := floor (div (mul memory_in_KB (Int 3)) (Int 4)) ]}
              db_type ;
       let config := <["effective_cache_size" := v]> config in
       (* work_mem *)
       do sb <- getitem config "shared_buffers" ;
       do mc <- getitem config "max_connections" ;
       do work_mem <- checked_div (sub memory_in_KB sb) (mul mc (Int 3)) ;
       do v <- getitem
              {[ "web" := floor work_mem;
                 "oltp" := floor work_mem;
                 "dw" := floor (div work_mem (Int 2));
                 "desktop" := floor (div work_mem (Int 6));
                 "mixed" := floor (div work_mem (Int 2)) ]} db_type ;
       let config := <["work_mem" := v]> config in
       (* maintenance_work_mem *)
       do v <- getitem
              {[ "web" := floor (div memory_in_KB (Int 16));
                 "oltp" := floor (div memory_in_KB (Int 16));
                 "dw" := floor (div memory_in_KB (Int 8));
                 "desktop" := floor (div memory_in_KB (Int 16));
                 "mixed" := floor (div memory_in_KB (Int 16)) ]} db_type ;
       let config := <["maintenance_work_mem" := v]> config in
       (* Cap maintenance RAM at 2GB on servers with lots of memory *)
       do mwm <- getitem config "maintenance_work_mem" ;
       let config :=
         if gt mwm (div (mul (Int 2) CONST_SIZE.GB) CONST_SIZE.KB)
         then <["maintenance_work_mem" :=
                  floor (div (mul (Int 2) CONST_SIZE.GB) CONST_SIZE.KB)]> config
         else config in
       do _ <- (if ge (Int total_memory) (mul (Int 100) CONST_SIZE.GB)
                then print high_memory_notice else ret tt) ;
       ret config
     else
       do _ <- print low_memory_notice ;
       ret config) ;
  do config <-
    (if lt (Float db_version) (Float (95 # 10)) then
       (* checkpoint_segments *)
       do v <- getitem
              {[ "web" := Int 32;
                 "oltp" := Int 64;
                 "dw" := Int 128;
                 "desktop" := Int 3;
                 "mixed" := Int 32 ]} db_type ;
       ret (<["checkpoint_segments" := v]> config)
     else
       do v <- getitem
              {[ "web" := div (mul (Int 1024) CONST_SIZE.MB) CONST_SIZE.KB;
                 "oltp" := div (mul (Int 2048) CONST_SIZE.MB) CONST_SIZE.KB;
                 "dw" := div (mul (Int 4096) CONST_SIZE.MB) CONST_SIZE.KB;
                 "desktop" := div (mul (Int 100) CONST_SIZE.MB) CONST_SIZE.KB;
                 "mixed" := div (mul (Int 1024) CONST_SIZE.MB) CONST_SIZE.KB ]}
              db_type ;
       let config := <["min_wal_size" := v]> config in
       do v <- getitem
              {[ "web" := div (mul (Int 2048) CONST_SIZE.MB) CONST_SIZE.KB;
                 "oltp" := div (mul (Int 4096) CONST_SIZE.MB) CONST_SIZE.KB;
                 "dw" := div (mul (Int 8192) CONST_SIZE.MB) CONST_SIZE.KB;
                 "desktop" := div (mul (Int 100) CONST_SIZE.MB) CONST_SIZE.KB;
                 "mixed" := div (mul (Int 2048) CONST_SIZE.MB) CONST_SIZE.KB ]}
              db_type ;
       ret (<["max_wal_size" := v]> config)) ;
  (* checkpoint_completion_target *)
  do v <- getitem
         {[ "web" := Float (7 # 10);
            "oltp" := Float (9 # 10);
            "dw" := Float (9 # 10);
            "desktop" := Float (5 # 10);
            "mixed" := Float (9 # 10) ]} db_type ;
  let config := <["checkpoint_completion_target" := v]> config in
  (* wal_buffers *)
  do config <-
    (if contains config "shared_buffers" then
       do sb <- getitem config "shared_buffers" ;
       let config :=
         <["wal_buffers" := floor (div (mul (Int 3) sb) (Int 100))]> config in
       do wb <- getitem config "wal_buffers" ;
       let config :=
         if gt wb (div (mul (Int 16) CONST_SIZE.MB) CONST_SIZE.KB)
         then <["wal_buffers" :=
                  floor (div (mul (Int 16) CONST_SIZE.MB) CONST_SIZE.KB)]> config
         else config in
       (* round upwards when near 16MB *)
       do wb <- getitem config "wal_buffers" ;
       let config :=
         if lt (div (mul (Int 14) CONST_SIZE.MB) CONST_SIZE.KB) wb
            && lt wb (div (mul (Int 16) CONST_SIZE.MB) CONST_SIZE.KB)
         then <["wal_buffers" :=
                  floor (div (mul (Int 16) CONST_SIZE.MB) CONST_SIZE.KB)]> config
         else config in
       ret config
     else ret config) ;
  (* default_statistics_target *)
  do v <- getitem
         {[ "web" := Int 100;
            "oltp" := Int 100;
            "dw" := Int 500;
            "desktop" := Int 100;
            "mixed" := Int 100 ]} db_type ;
  ret (<["default_statistics_target" := v]> config).

Definition NOT_SIZE_VALUES : list string :=
  [ "max_connections"; "checkpoint_segments";
    "checkpoint_completion_target"; "default_statistics_target";
    "random_page_cost"; "seq_page_cost" ].

Definition format_value (key : string) (value : num) : string :=
  if bool_decide (key ∈ NOT_SIZE_VALUES) then str value
  else if Py.eq (mod_ value CONST_SIZE.KB_PER_GB) (Int 0) then
    let value := floor (div value CONST_SIZE.KB_PER_GB) in
    str (int value) +:+ "GB"
  else if Py.eq (mod_ value CONST_SIZE.KB_PER_MB) (Int 0) then
    let value := floor (div value CONST_SIZE.KB_PER_MB) in
    str (int value) +:+ "MB"
  else
    str (int value) +:+ "kB".

(** [{ k: format_value(k, v) for k, v in config.iteritems() }] *)
Definition format_items (config : gmap string num) : gmap string string :=
  map_imap (fun k v => Some (format_value k v)) config.


(** ** The workload types *)

Definition db_types : list string := [ "web"; "oltp"; "dw"; "desktop"; "mixed" ].

(** The five keys that every table of the module has. *)
Inductive workload : Type := Web | Oltp | Dw | Desktop | Mixed.

Definition workload_name (w : workload) : string :=
  match w with
  | Web => "web" | Oltp => "oltp" | Dw => "dw"
  | Desktop => "desktop" | Mixed => "mixed"
  end.

Definition parse_type (db_type : string) : option workload :=
  if String.eqb db_type "web" then Some Web
  else if String.eqb db_type "oltp" then Some Oltp
  else if String.eqb db_type "dw" then Some Dw
  else if String.eqb db_type "desktop" then Some Desktop
  else if String.eqb db_type "mixed" then Some Mixed
  else None.

(** The entry of a five-key table. *)
Definition select {V} (w : workload) (web oltp dw desktop mixed : V) : V :=
  match w with
  | Web => web | Oltp => oltp | Dw => dw | Desktop => desktop | Mixed => mixed
  end.

(** ** The rules as the specification words them

    Sizes are integers, in KB; [w] is the workload type. *)

Module Spec.

Definition memKB (totalMemoryBytes : Z) : Z := totalMemoryBytes / 1024.

Definition default_connections (w : workload) : Z :=
  select w 200 300 20 5 100.

(** The input when it is present and in [1, 9999], else the default. *)
Definition max_connections (w : workload) (maxConnections : option Z) : Z :=
  match maxConnections with
  | Some n => if (1 <=? n) && (n <=? 9999) then n else default_connections w
  | None => default_connections w
  end.

(** [memKB / 4], [memKB / 16] for desktop; on Windows clamped to 512 MiB. *)
Definition shared_buffers (osType : string) (w : workload) (bytes : Z) : Z :=
  let sb := select w (memKB bytes / 4) (memKB bytes / 4) (memKB bytes / 4)
              (memKB bytes / 16) (memKB bytes / 4) in
  if String.eqb osType "windows" && (524288 <? sb) then 524288 else sb.

(** [memKB * 3/4], [memKB / 4] for desktop. *)
Definition effective_cache_size (w : workload) (bytes : Z) : Z :=
  select w (memKB bytes * 3 / 4) (memKB bytes * 3 / 4) (memKB bytes * 3 / 4)
    (memKB bytes / 4) (memKB bytes * 3 / 4).

(** [memKB / 16], [memKB / 8] for dw; capped at 2 GiB. *)
Definition maintenance_work_mem (w : workload) (bytes : Z) : Z :=
  Z.min 2097152
    (select w (memKB bytes / 16) (memKB bytes / 16) (memKB bytes / 8)
       (memKB bytes / 16) (memKB bytes / 16)).

Definition checkpoint_segments (w : workload) : Z :=
  select w 32 64 128 3 32.

Definition min_wal_size (w : workload) : Z :=
  select w (1024 * 1024) (2048 * 1024) (4096 * 1024) (100 * 1024)
    (1024 * 1024).

Definition max_wal_size (w : workload) : Z :=
  select w (2048 * 1024) (4096 * 1024) (8192 * 1024) (100 * 1024)
    (2048 * 1024).

Definition checkpoint_completion_target (w : workload) : Q :=
  select w (7 # 10)%Q (9 # 10)%Q (9 # 10)%Q (5 # 10)%Q (9 # 10)%Q.

Definition default_statistics_target (w : workload) : Z :=
  select w 100 100 500 100 100.


End Spec.

(** ** Notions used by the statements *)

(** [wp m Q]: [m] returns, and its output and value satisfy [Q]. *)
Definition wp {A} (m : M A) (Q : list string -> A -> Prop) : Prop :=
  match m with
  | (out, Return a) => Q out a
  | (_, Raise _) => False
  end.

(** [n] is the integer [z], as an [int] or as a [float]. *)
Definition integral (n : num) (z : Z) : Prop := val n = inject_Z z.

(** [cfg[key]] is a number of integral value [z]. *)
Definition holds (cfg : gmap string num) (key : string) (z : Z) : Prop :=
  exists n, cfg !! key = Some n /\ integral n z.

(** The keys that do not depend on the memory. *)
Definition common_keys (v : Q) (w : workload) (mc : option Z)
    (cfg : gmap string num) : Prop :=
  cfg !! "max_connections" = Some (Int (Spec.max_connections w mc))
  /\ cfg !! "checkpoint_segments"
     = (if lt (Float v) (Float (95 # 10))
        then Some (Int (Spec.checkpoint_segments w)) else None)
  /\ cfg !! "min_wal_size"
     = (if lt (Float v) (Float (95 # 10))
        then None else Some (Int (Spec.min_wal_size w)))
  /\ cfg !! "max_wal_size"
     = (if lt (Float v) (Float (95 # 10))
        then None else Some (Int (Spec.max_wal_size w)))
  /\ cfg !! "checkpoint_completion_target"
     = Some (Float (Spec.checkpoint_completion_target w))
  /\ cfg !! "default_statistics_target"
     = Some (Int (Spec.default_statistics_target w)).

(** shared_buffers as the configuration holds it: the quotient as a
    double, clamped on Windows. *)
Definition stored_shared_buffers (os : string) (w : workload) (tm : Z) : Z :=
  let sb :=
    nearest_double
      (select w (tm / 1024 / 4) (tm / 1024 / 4) (tm / 1024 / 4)
         (tm / 1024 / 16) (tm / 1024 / 4)) in
  if String.eqb os "windows" && (524288 <? sb) then 524288 else sb.

(** The rule of wal_buffers on the 3% of a shared_buffers value. *)
Definition wal_rule (u : Z) : Z :=
  let capped := Z.min u 16384 in
  if (14336 <? capped) && (capped <? 16384) then 16384 else capped.

(** The keys of the memory sizes, from 256 MiB on. *)
Definition memory_keys (os : string) (w : workload) (tm : Z)
    (cfg : gmap string num) : Prop :=
  holds cfg "shared_buffers" (stored_shared_buffers os w tm)
  /\ holds cfg "effective_cache_size"
       (nearest_double (Spec.effective_cache_size w tm))
  /\ is_Some (cfg !! "work_mem")
  /\ holds cfg "maintenance_work_mem" (Spec.maintenance_work_mem w tm)
  /\ holds cfg "wal_buffers"
       (wal_rule (3 * stored_shared_buffers os w tm / 100)).

(** No key of the memory sizes, below 256 MiB. *)
Definition no_memory_keys (cfg : gmap string num) : Prop :=
  cfg !! "shared_buffers" = None
  /\ cfg !! "effective_cache_size" = None
  /\ cfg !! "work_mem" = None
  /\ cfg !! "maintenance_work_mem" = None
  /\ cfg !! "wal_buffers" = None.

(** ** More of the rules *)

(** work_mem in KB: the memory left by shared_buffers, over three times
    the connections, divided again by 2 for dw and mixed and by 6 for
    desktop. *)
Definition work_mem_KB (osType : string) (w : workload) (bytes : Z)
    (maxConnections : option Z) : Z :=
  (Spec.memKB bytes - Spec.shared_buffers osType w bytes)
    / (Spec.max_connections w maxConnections * 3)
    / select w 1 1 2 6 2.

(** The keys [postgres_settings] can set. *)
Definition known_keys : list string :=
  [ "max_connections"; "shared_buffers"; "effective_cache_size"; "work_mem";
    "maintenance_work_mem"; "checkpoint_segments"; "min_wal_size";
    "max_wal_size"; "checkpoint_completion_target"; "wal_buffers";
    "default_statistics_target" ].


(** * Proofs *)

(** ** Running a computation *)

Lemma wp_run {A} (m : M A) Q :
  wp m Q -> exists out a, m = (out, Return a) /\ Q out a.
Proof. destruct m as [out [a|e]]; simpl; [eauto | tauto]. Qed.

Lemma wp_bind {A B} (m : M A) (f : A -> M B) Q :
  wp m (fun out a => wp (f a) (fun out' b => Q (out ++ out')%list b)) ->
  wp (bind m f) Q.
Proof.
  destruct m as [out [a|e]]; simpl; [|tauto].
  destruct (f a) as [out' [b|e]]; simpl; tauto.
Qed.

Lemma wp_ret {A} (a : A) Q : Q [] a -> wp (ret a) Q.
Proof. exact id. Qed.

Lemma wp_print (line : string) Q : Q [line] tt -> wp (print line) Q.
Proof. exact id. Qed.

Lemma wp_let {A B} (e : A) (f : A -> M B) Q :
  (forall x, x = e -> wp (f x) Q) -> wp (let x := e in f x) Q.
Proof. intros H. exact (H e eq_refl). Qed.

Lemma wp_getitem {V} (d : gmap string V) k v Q :
  d !! k = Some v -> (forall x, x = v -> Q [] x) -> wp (getitem d k) Q.
Proof. intros H HQ. unfold getitem. rewrite H. exact (HQ _ eq_refl). Qed.

Lemma wp_checked_div a b Q :
  Py.eq b (Int 0) = false ->
  (forall x, x = div a b -> Q [] x) -> wp (checked_div a b) Q.
Proof. intros H HQ. unfold checked_div. rewrite H. exact (HQ _ eq_refl). Qed.

Lemma wp_if_true {A} (c : bool) (m1 m2 : M A) Q :
  c = true -> wp m1 Q -> wp (if c then m1 else m2) Q.
Proof. intros ->. exact id. Qed.

Lemma wp_if_false {A} (c : bool) (m1 m2 : M A) Q :
  c = false -> wp m2 Q -> wp (if c then m1 else m2) Q.
Proof. intros ->. exact id. Qed.

(** Both branches return without printing: the value is the conditional
    of their values. *)
Lemma wp_if_merge {A} (c : bool) (m1 m2 : M A) a1 a2 Q :
  m1 = ret a1 -> m2 = ret a2 ->
  (forall x, x = (if c then a1 else a2) -> Q [] x) ->
  wp (if c then m1 else m2) Q.
Proof. intros -> -> HQ. destruct c; exact (HQ _ eq_refl). Qed.

Lemma wp_if_print (c : bool) (line : string) Q :
  Q (if c then [line] else []) tt ->
  wp (if c then print line else ret tt) Q.
Proof. destruct c; exact id. Qed.

Lemma wp_contains_true {V A} (d : gmap string V) k v (m1 m2 : M A) Q :
  d !! k = Some v -> wp m1 Q -> wp (if contains d k then m1 else m2) Q.
Proof.
  intros E. unfold contains.
  rewrite bool_decide_eq_true_2 by eauto. exact id.
Qed.

Lemma wp_contains_false {V A} (d : gmap string V) k (m1 m2 : M A) Q :
  d !! k = None -> wp m2 Q -> wp (if contains d k then m1 else m2) Q.
Proof.
  intros E. unfold contains.
  rewrite bool_decide_eq_false_2 by (rewrite E; intros [? ?]; discriminate).
  exact id.
Qed.

(** ** Reading a key of a configuration *)

Lemma lookup_if_same {V} (c : bool) (m1 m2 : gmap string V) k r :
  m1 !! k = r -> m2 !! k = r -> (if c then m1 else m2) !! k = r.
Proof. destruct c; tauto. Qed.

Lemma lookup_if_Some {V} (c : bool) (m1 m2 : gmap string V) k a b :
  m1 !! k = Some a -> m2 !! k = Some b ->
  (if c then m1 else m2) !! k = Some (if c then a else b).
Proof. destruct c; tauto. Qed.

Lemma lookup_if_None {V} (c : bool) (m1 m2 : gmap string V) k :
  m1 !! k = None -> m2 !! k = None -> (if c then m1 else m2) !! k = None.
Proof. destruct c; tauto. Qed.

Lemma lookup_if {V} (c : bool) (m1 m2 : gmap string V) k r1 r2 :
  m1 !! k = r1 -> m2 !! k = r2 ->
  (if c then m1 else m2) !! k = if c then r1 else r2.
Proof. destruct c; tauto. Qed.

Lemma lookup_insert_skip {V} (m : gmap string V) k k' v r :
  k' ≠ k -> m !! k = r -> <[k' := v]> m !! k = r.
Proof. intros H <-. apply lookup_insert_ne, H. Qed.

Lemma lookup_eq {V} (m m' : gmap string V) k r :
  m = m' -> m' !! k = r -> m !! k = r.
Proof. intros ->. exact id. Qed.

(** [m !! k = ?r] for a map built from [∅] by insertions at literal keys,
    conditionals, and names defined by equations of the context. *)
Ltac lookup :=
  lazymatch goal with
  | |- (<[?k' := ?v]> ?m) !! ?k = _ =>
      tryif constr_eq k' k
      then apply lookup_insert_eq
      else (apply lookup_insert_skip; [discriminate | lookup])
  | |- (if ?c then ?m1 else ?m2) !! ?k = _ =>
      first [ apply lookup_if_same; lookup
            | apply lookup_if_Some; lookup
            | apply lookup_if; lookup ]
  | |- ∅ !! _ = _ => apply lookup_empty
  | H : ?m = _ |- ?m !! _ = _ => eapply lookup_eq; [exact H | lookup]
  end.

(** ** Readings of the numbers *)

Lemma integral_Int z : integral (Int z) z.
Proof. reflexivity. Qed.

(** *** The nearest double *)

Lemma nearest_double_small z : Z.abs z <= 2 ^ 53 -> nearest_double z = z.
Proof.
  intros H. unfold nearest_double.
  destruct (Z.ltb_spec (Z.abs z) (2 ^ 53)) as [|Hge]; [reflexivity|].
  assert (E : Z.abs z = 2 ^ 53) by lia. rewrite E.
  assert (Hz : z = 2 ^ 53 \/ z = - 2 ^ 53) by lia.
  destruct Hz as [-> | ->]; reflexivity.
Qed.

(** The shape of the rounding of [z >= 2^53]. *)
Lemma nearest_double_big z :
  2 ^ 53 <= z ->
  exists e q r,
    e = Z.log2 z - 52 /\ 1 <= e /\ z = q * 2 ^ e + r /\ 0 <= r < 2 ^ e
    /\ 2 ^ 52 <= q < 2 ^ 53
    /\ nearest_double z
       = (if (2 ^ (e - 1) <? r) || ((r =? 2 ^ (e - 1)) && Z.odd q)
          then q + 1 else q) * 2 ^ e.
Proof.
  intros Hz. unfold nearest_double.
  assert (Ha : Z.abs z = z) by lia. rewrite Ha.
  destruct (Z.ltb_spec z (2 ^ 53)) as [|_]; [lia|].
  assert (Hl : 53 <= Z.log2 z).
  { change 53 with (Z.log2 (2 ^ 53)). apply Z.log2_le_mono. exact Hz. }
  set (e := Z.log2 z - 52).
  assert (He : 1 <= e) by (unfold e; lia).
  assert (Hp : 0 < 2 ^ e) by (apply Z.pow_pos_nonneg; lia).
  exists e, (z / 2 ^ e), (z mod 2 ^ e).
  split; [reflexivity|]. split; [exact He|].
  split; [rewrite Z.mul_comm; apply Z.div_mod; lia|].
  split; [apply Z.mod_pos_bound; exact Hp|].
  split.
  - destruct (Z.log2_spec z ltac:(lia)) as [Hlo Hhi].
    replace (Z.log2 z) with (e + 52) in Hlo by (unfold e; lia).
    replace (Z.succ (Z.log2 z)) with (e + 53) in Hhi by (unfold e; lia).
    rewrite Z.pow_add_r in Hlo, Hhi by lia.
    split.
    + apply Z.div_le_lower_bound; [exact Hp|]. lia.
    + apply Z.div_lt_upper_bound; [exact Hp|]. lia.
  - replace (Z.sgn z) with 1 by lia. rewrite Z.mul_1_l. reflexivity.
Qed.

Lemma nearest_double_lower z : 2 ^ 53 <= z -> 2 ^ 53 <= nearest_double z.
Proof.
  intros Hz.
  destruct (nearest_double_big z Hz) as (e & q & r & _ & He & _ & _ & Hq & ->).
  assert (Hp : 2 <= 2 ^ e).
  { change 2 with (2 ^ 1) at 1. apply Z.pow_le_mono_r; lia. }
  destruct (_ || _); nia.
Qed.

Lemma nearest_double_mono a b :
  0 <= a <= b -> nearest_double a <= nearest_double b.
Proof.
  intros [Ha Hab].
  destruct (Z_lt_le_dec b (2 ^ 53)) as [Hb|Hb].
  { rewrite !nearest_double_small by lia. exact Hab. }
  destruct (Z_lt_le_dec a (2 ^ 53)) as [Ha'|Ha'].
  { rewrite (nearest_double_small a) by lia.
    pose proof (nearest_double_lower b Hb). lia. }
  destruct (nearest_double_big a Ha')
    as (ea & qa & ra & Eea & Hea & Ea & Hra & Hqa & ->).
  destruct (nearest_double_big b Hb)
    as (eb & qb & rb & Eeb & Heb & Eb & Hrb & Hqb & ->).
  assert (Hle : ea <= eb).
  { subst ea eb. pose proof (Z.log2_le_mono a b Hab). lia. }
  assert (Hpa : 0 < 2 ^ ea) by (apply Z.pow_pos_nonneg; lia).
  assert (Hpb : 0 < 2 ^ eb) by (apply Z.pow_pos_nonneg; lia).
  destruct (Z.eq_dec ea eb) as [E|NE].
  - subst eb. rewrite <- E in *. clear E.
    set (P := 2 ^ ea) in *. set (h := 2 ^ (ea - 1)) in *.
    destruct (Z_lt_le_dec qa qb) as [Hq|Hq].
    + destruct (_ || _); destruct (_ || _); nia.
    + assert (Eq : qa = qb) by nia. subst qb.
      assert (Hr : ra <= rb) by nia.
      destruct (Z.ltb_spec h ra), (Z.ltb_spec h rb),
        (Z.eqb_spec ra h), (Z.eqb_spec rb h), (Z.odd qa);
        cbn [orb andb]; nia.
  - assert (Hpow : 2 ^ ea * 2 <= 2 ^ eb).
    { replace eb with (ea + (eb - ea)) by lia.
      rewrite Z.pow_add_r by lia.
      assert (2 <= 2 ^ (eb - ea)).
      { change 2 with (2 ^ 1) at 1. apply Z.pow_le_mono_r; lia. }
      nia. }
    destruct (_ || _); destruct (_ || _); nia.
Qed.

(** A bound below 2^53 is passed by an integer and by its double alike. *)
Lemma nearest_double_ltb c a :
  0 <= a -> 0 <= c < 2 ^ 53 -> (c <? nearest_double a) = (c <? a).
Proof.
  intros Ha Hc.
  destruct (Z_lt_le_dec a (2 ^ 53)) as [H|H].
  - rewrite nearest_double_small by lia. reflexivity.
  - pose proof (nearest_double_lower a H).
    destruct (Z.ltb_spec c (nearest_double a)), (Z.ltb_spec c a);
      try reflexivity; lia.
Qed.

Lemma to_float_small z :
  Z.abs z <= 2 ^ 53 -> to_float (Int z) = inject_Z z.
Proof. intros H. unfold to_float. rewrite nearest_double_small by exact H. reflexivity. Qed.

Lemma floor_Int z : floor (Int z) = Float (inject_Z (nearest_double z)).
Proof. unfold floor, to_float. rewrite Qfloor_Z. reflexivity. Qed.

Lemma floor_Int_small z :
  Z.abs z <= 2 ^ 53 -> floor (Int z) = Float (inject_Z z).
Proof. intros H. rewrite floor_Int, nearest_double_small by exact H. reflexivity. Qed.

Lemma Qle_bool_inject (x y : Z) : Qle_bool (inject_Z x) (inject_Z y) = (x <=? y).
Proof. unfold Qle_bool. simpl. rewrite !Z.mul_1_r. reflexivity. Qed.

Lemma le_integral a b x y : integral a x -> integral b y -> le a b = (x <=? y).
Proof. unfold integral, le. intros -> ->. apply Qle_bool_inject. Qed.

Lemma lt_integral a b x y : integral a x -> integral b y -> lt a b = (x <? y).
Proof.
  unfold integral, lt. intros -> ->. rewrite Qle_bool_inject.
  rewrite Z.ltb_antisym. reflexivity.
Qed.

Lemma ge_integral a b x y : integral a x -> integral b y -> ge a b = (y <=? x).
Proof. intros Ha Hb. apply (le_integral b a); assumption. Qed.

Lemma gt_integral a b x y : integral a x -> integral b y -> gt a b = (y <? x).
Proof. intros Ha Hb. apply (lt_integral b a); assumption. Qed.

Lemma eq_Int x y : Py.eq (Int x) (Int y) = (x =? y).
Proof. unfold Py.eq, Qeq_bool. simpl. rewrite !Z.mul_1_r. reflexivity. Qed.

(** The divisor of [work_mem] is never zero. *)
Lemma max_connections_nonzero w mc x :
  x = (if max_connections_rejected mc
       then select w (Int 200) (Int 300) (Int 20) (Int 5) (Int 100)
       else match mc with Some n => Int n | None => Int 0 end) ->
  Py.eq (mul x (Int 3)) (Int 0) = false.
Proof.
  intros ->.
  destruct (max_connections_rejected mc) eqn:R.
  - destruct w; reflexivity.
  - destruct mc as [n|]; [|discriminate]. unfold max_connections_rejected in R.
    apply orb_false_elim in R as [R _]. apply orb_false_elim in R as [R _].
    change (mul (Int n) (Int 3)) with (Int (n * 3)).
    rewrite eq_Int. apply Z.eqb_neq in R. apply Z.eqb_neq. lia.
Qed.

(** Case analysis on the first string comparison of the goal. *)
Ltac case_eqb :=
  match goal with
  | |- context [String.eqb ?a ?b] =>
      destruct (String.eqb_spec a b) as [->|?]
  end.

Lemma parse_type_name db_type w :
  parse_type db_type = Some w -> db_type = workload_name w.
Proof.
  unfold parse_type.
  repeat (case_eqb; [intros [= <-]; reflexivity|]).
  discriminate.
Qed.

Lemma parse_type_None db_type :
  parse_type db_type = None -> db_type ∉ db_types.
Proof.
  unfold parse_type, db_types.
  repeat (case_eqb; [discriminate|]).
  intros _. rewrite !elem_of_cons, elem_of_nil. tauto.
Qed.


Lemma lookup_table {V} (a b c d e : V) (db_type : string) :
  ({[ "web" := a; "oltp" := b; "dw" := c; "desktop" := d; "mixed" := e ]}
     : gmap string V) !! db_type
  = match parse_type db_type with
    | Some w => Some (select w a b c d e)
    | None => None
    end.
Proof.
  destruct (parse_type db_type) as [w|] eqn:Hw.
  - apply parse_type_name in Hw as ->. destruct w; reflexivity.
  - apply parse_type_None in Hw. unfold db_types in Hw.
    rewrite !elem_of_cons, elem_of_nil in Hw.
    rewrite !lookup_insert_ne, lookup_singleton_ne by (intros <-; tauto).
    reflexivity.
Qed.

Lemma wp_table {V} (a b c d e : V) db_type w Q :
  parse_type db_type = Some w ->
  (forall x, x = select w a b c d e -> Q [] x) ->
  wp (getitem
        {[ "web" := a; "oltp" := b; "dw" := c; "desktop" := d; "mixed" := e ]}
        db_type) Q.
Proof.
  intros Hw HQ. unfold getitem. rewrite lookup_table, Hw.
  exact (HQ _ eq_refl).
Qed.

Lemma getitem_table_ret {V} (a b c d e : V) db_type w :
  parse_type db_type = Some w ->
  getitem
    {[ "web" := a; "oltp" := b; "dw" := c; "desktop" := d; "mixed" := e ]}
    db_type
  = ret (select w a b c d e).
Proof. intros Hw. unfold getitem. rewrite lookup_table, Hw. reflexivity. Qed.


Lemma getitem_ret {V} (d : gmap string V) k v :
  d !! k = Some v -> getitem d k = ret v.
Proof. intros H. unfold getitem. rewrite H. reflexivity. Qed.

Lemma bind_ret {A B} (a : A) (f : A -> M B) : bind (ret a) f = f a.
Proof. unfold bind, ret. destruct (f a) as [out r]. reflexivity. Qed.

(** One step of a computation whose value is wanted: [m = ret ?a]. *)
Ltac branch Hw :=
  repeat first
    [ rewrite (getitem_table_ret _ _ _ _ _ _ _ Hw)
    | erewrite getitem_ret by lookup
    | rewrite bind_ret ];
  cbv beta; reflexivity.

(** One step of [wp]; names every value by an equation. *)
Ltac wp_step Hw :=
  lazymatch goal with
  | |- wp (bind _ _) _ => apply wp_bind
  | |- wp (let x := ?e in @?f x) ?Q =>
      let n := fresh x in
      let E := fresh "E" n in
      refine (wp_let e f Q _); intros n E; cbv beta
  | |- wp (ret ?a) _ => apply wp_ret; cbv beta
  | |- wp (print _) _ => apply wp_print; cbv beta
  | |- wp (getitem _ ?k) _ =>
      tryif is_var k
      then (let n := fresh "v" in
            let E := fresh "E" n in
            eapply wp_table; [exact Hw | intros n E; cbv beta])
      else (let n := fresh "x" in
            let E := fresh "E" n in
            eapply wp_getitem; [lookup | intros n E; cbv beta])
  | |- wp (checked_div _ _) _ =>
      let n := fresh "q" in
      let E := fresh "E" n in
      eapply wp_checked_div;
        [eapply max_connections_nonzero; eassumption | intros n E; cbv beta]
  | |- wp (if contains _ _ then _ else _) _ =>
      first [ eapply wp_contains_true; [lookup |]
            | eapply wp_contains_false; [lookup |] ]
  | |- wp (if _ then print _ else ret tt) _ => apply wp_if_print; cbv beta
  | |- wp (if _ then _ else _) _ =>
      first
        [ eapply wp_if_true; [eassumption |]
        | eapply wp_if_false; [eassumption |]
        | let n := fresh "c" in
          let E := fresh "E" n in
          eapply wp_if_merge; [branch Hw | branch Hw | intros n E; cbv beta] ]
  end.

Ltac wp_start :=
  cbv delta [postgres_config CON_BY_TYPE]; cbv beta.

(** ** Arithmetic on the numbers of a configuration *)

Lemma div_Int a b : div (Int a) (Int b) = Int (a / b).
Proof. reflexivity. Qed.

Lemma mul_Int a b : mul (Int a) (Int b) = Int (a * b).
Proof. reflexivity. Qed.

Lemma gt_FI a b : gt (Float (inject_Z a)) (Int b) = (b <? a).
Proof. apply gt_integral; reflexivity. Qed.

Lemma lt_FI a b : lt (Float (inject_Z a)) (Int b) = (a <? b).
Proof. apply lt_integral; reflexivity. Qed.

Lemma lt_IF a b : lt (Int a) (Float (inject_Z b)) = (a <? b).
Proof. apply lt_integral; reflexivity. Qed.

Lemma ge_II a b : ge (Int a) (Int b) = (b <=? a).
Proof. apply ge_integral; reflexivity. Qed.

Lemma lt_II a b : lt (Int a) (Int b) = (a <? b).
Proof. apply lt_integral; reflexivity. Qed.

Lemma gt_II a b : gt (Int a) (Int b) = (b <? a).
Proof. apply gt_integral; reflexivity. Qed.

(** [math.floor(3 * x / 100)] on a float is the floor division. *)
Lemma floor_pct_F z :
  floor (div (mul (Int 3) (Float (inject_Z z))) (Int 100))
  = Float (inject_Z (3 * z / 100)).
Proof.
  unfold floor, div, mul.
  rewrite !to_float_small by (apply Z.leb_le; reflexivity).
  unfold to_float, Qfloor, Qdiv, Qmult, Qinv, inject_Z; simpl.
  rewrite Z.mul_1_r. reflexivity.
Qed.

(** The same on the int of the Windows clamp. *)
Lemma floor_pct_clamp :
  floor (div (mul (Int 3) (Int 524288)) (Int 100))
  = Float (inject_Z (3 * 524288 / 100)).
Proof. reflexivity. Qed.

Lemma floor_16384 : floor (Int 16384) = Float (inject_Z 16384).
Proof. reflexivity. Qed.

Lemma floor_2097152 : floor (Int 2097152) = Float (inject_Z 2097152).
Proof. reflexivity. Qed.

Lemma size_256MB : mul (Int 256) CONST_SIZE.MB = Int 268435456.
Proof. reflexivity. Qed.
Lemma size_100GB : mul (Int 100) CONST_SIZE.GB = Int 107374182400.
Proof. reflexivity. Qed.
Lemma size_512MB : div (mul (Int 512) CONST_SIZE.MB) CONST_SIZE.KB = Int 524288.
Proof. reflexivity. Qed.
Lemma size_2GB : div (mul (Int 2) CONST_SIZE.GB) CONST_SIZE.KB = Int 2097152.
Proof. reflexivity. Qed.
Lemma size_16MB : div (mul (Int 16) CONST_SIZE.MB) CONST_SIZE.KB = Int 16384.
Proof. reflexivity. Qed.
Lemma size_14MB : div (mul (Int 14) CONST_SIZE.MB) CONST_SIZE.KB = Int 14336.
Proof. reflexivity. Qed.
Lemma size_KB : CONST_SIZE.KB = Int 1024.
Proof. reflexivity. Qed.

Lemma integral_Float a b : a = b -> integral (Float (inject_Z a)) b.
Proof. intros ->. reflexivity. Qed.

(** Linear arithmetic with divisions by literals. *)
Ltac div_lia := Z.to_euclidean_division_equations; lia.

Ltac norm :=
  rewrite ?size_512MB, ?size_2GB, ?size_16MB, ?size_14MB, ?size_KB,
    ?floor_pct_clamp, ?floor_16384, ?floor_2097152,
    ?mul_Int, ?div_Int, ?floor_Int, ?floor_pct_F,
    ?gt_FI, ?lt_FI, ?lt_IF, ?gt_II.

Lemma integral_Int_eq a b : a = b -> integral (Int a) b.
Proof. intros ->. reflexivity. Qed.

(** Decides the comparisons of the goal one after the other, and closes
    each case by arithmetic. *)
Ltac split_cases :=
  repeat (norm;
          match goal with
          | |- context [String.eqb ?a ?b] =>
              destruct (String.eqb a b); cbn [andb]
          | |- context [Z.ltb ?a ?b] =>
              destruct (Z.ltb_spec a b); cbn [andb]
          end);
  norm;
  first [ reflexivity
        | apply integral_Float; div_lia
        | apply integral_Int_eq; div_lia ].

(** ** What [postgres_config] computes *)

Lemma max_connections_value w mc :
  (if max_connections_rejected mc
   then select w (Int 200) (Int 300) (Int 20) (Int 5) (Int 100)
   else match mc with Some n => Int n | None => Int 0 end)
  = Int (Spec.max_connections w mc).
Proof.
  unfold max_connections_rejected, Spec.max_connections,
    Spec.default_connections.
  destruct mc as [n|]; [|destruct w; reflexivity].
  rewrite lt_II, gt_II.
  destruct (Z.eqb_spec n 0), (Z.ltb_spec n 1), (Z.ltb_spec 9999 n),
    (Z.leb_spec 1 n), (Z.leb_spec n 9999);
    simpl; try lia; destruct w; reflexivity.
Qed.

Lemma postgres_config_high v os ty tm mc w :
  parse_type ty = Some w ->
  268435456 <= tm ->
  wp (postgres_config v os ty tm mc)
    (fun out cfg =>
       out = (if 107374182400 <=? tm then [high_memory_notice] else [])
       /\ common_keys v w mc cfg /\ memory_keys os w tm cfg).
Proof.
  intros Hw Hm.
  assert (Hge : ge (Int tm) (mul (Int 256) CONST_SIZE.MB) = true).
  { rewrite size_256MB, ge_II. apply Z.leb_le, Hm. }
  wp_start. repeat wp_step Hw.
  assert (EKB : memory_in_KB = Int (tm / 1024)) by exact Ememory_in_KB.
  clear Ememory_in_KB.
  split; [|split].
  - rewrite size_100GB, ge_II. destruct (107374182400 <=? tm); reflexivity.
  - unfold common_keys. repeat split.
    + etransitivity; [lookup|]. f_equal. apply max_connections_value.
    + etransitivity; [lookup|]. destruct w; reflexivity.
    + etransitivity; [lookup|]. destruct w; reflexivity.
    + etransitivity; [lookup|]. destruct w; reflexivity.
    + etransitivity; [lookup|]. subst v4. destruct w; reflexivity.
    + etransitivity; [lookup|]. subst v5. destruct w; reflexivity.
  - unfold memory_keys. repeat split.
    + eexists. split; [lookup|].
      subst c0 v0 memory_in_KB.
      unfold stored_shared_buffers.
      destruct w; cbn [select]; split_cases.
    + eexists. split; [lookup|].
      subst v1 memory_in_KB.
      unfold Spec.effective_cache_size, Spec.memKB.
      destruct w; cbn [select]; split_cases.
    + eexists. lookup.
    + eexists. split; [lookup|].
      subst x1 v3 memory_in_KB.
      unfold Spec.maintenance_work_mem, Spec.memKB.
      destruct w; cbn [select]; norm;
        match goal with
        | |- context [nearest_double ?a] =>
            assert (Ha : 0 <= a) by div_lia;
            rewrite (nearest_double_ltb 2097152 a Ha)
              by (split; [lia | apply Z.ltb_lt; reflexivity]);
            destruct (Z.ltb_spec 2097152 a);
            [| rewrite (nearest_double_small a)
                 by (apply Z.le_trans with 2097152;
                     [lia | apply Z.leb_le; reflexivity])];
            apply integral_Float; lia
        end.
    + eexists. split; [lookup|].
      subst x4 x3 x2 c0 v0 memory_in_KB.
      unfold wal_rule, stored_shared_buffers.
      destruct w; cbn [select]; norm;
        match goal with
        | |- context [nearest_double ?a] =>
            generalize (nearest_double a); intros s
        end;
        split_cases.
Qed.

Lemma postgres_config_low v os ty tm mc w :
  parse_type ty = Some w ->
  tm < 268435456 ->
  wp (postgres_config v os ty tm mc)
    (fun out cfg =>
       out = [low_memory_notice]
       /\ common_keys v w mc cfg /\ no_memory_keys cfg).
Proof.
  intros Hw Hm.
  assert (Hge : ge (Int tm) (mul (Int 256) CONST_SIZE.MB) = false).
  { rewrite size_256MB, ge_II. apply Z.leb_gt, Hm. }
  wp_start. repeat wp_step Hw.
  split; [|split].
  - reflexivity.
  - unfold common_keys. repeat split.
    + etransitivity; [lookup|]. f_equal. apply max_connections_value.
    + etransitivity; [lookup|]. destruct w; reflexivity.
    + etransitivity; [lookup|]. destruct w; reflexivity.
    + etransitivity; [lookup|]. destruct w; reflexivity.
    + etransitivity; [lookup|]. subst v0. destruct w; reflexivity.
    + etransitivity; [lookup|]. subst v1. destruct w; reflexivity.
  - unfold no_memory_keys. repeat split; lookup.
Qed.


(** ** Formatting *)

Lemma lookup_format_items cfg k :
  format_items cfg !! k = format_value k <$> cfg !! k.
Proof.
  unfold format_items. rewrite map_lookup_imap.
  destruct (cfg !! k); reflexivity.
Qed.



Lemma parse_workload_name w : parse_type (workload_name w) = Some w.
Proof. destruct w; reflexivity. Qed.

(** The run of [postgres_config] on a known workload type. *)
Lemma postgres_config_run v os w tm mc :
  exists out cfg,
    postgres_config v os (workload_name w) tm mc = (out, Return cfg)
    /\ common_keys v w mc cfg
    /\ (268435456 <= tm -> memory_keys os w tm cfg)
    /\ (tm < 268435456 -> out = [low_memory_notice] /\ no_memory_keys cfg).
Proof.
  destruct (Z.le_gt_cases 268435456 tm) as [Hm|Hm].
  - destruct (wp_run _ _ (postgres_config_high v os _ tm mc w
                            (parse_workload_name w) Hm))
      as (out & cfg & Hrun & _ & Hc & Hk).
    exists out, cfg.
    split; [exact Hrun|]. split; [exact Hc|]. split; [intros _; exact Hk|lia].
  - destruct (wp_run _ _ (postgres_config_low v os _ tm mc w
                            (parse_workload_name w) Hm))
      as (out & cfg & Hrun & Hout & Hc & Hk).
    exists out, cfg.
    split; [exact Hrun|]. split; [exact Hc|]. split; [lia|].
    intros _. split; assumption.
Qed.

Lemma lt_Float (a b : Q) : lt (Float a) (Float b) = true <-> (a < b)%Q.
Proof.
  unfold lt, val. rewrite negb_true_iff. split.
  - intros H. apply Qnot_le_lt. intros Hle.
    apply Qle_bool_iff in Hle. congruence.
  - intros H. destruct (Qle_bool b a) eqn:E; [|reflexivity].
    apply Qle_bool_iff in E. apply Qlt_not_le in H. contradiction.
Qed.

Lemma lt_Float_false (a b : Q) : lt (Float a) (Float b) = false <-> (b <= a)%Q.
Proof.
  unfold lt, val. rewrite negb_false_iff. apply Qle_bool_iff.
Qed.

Lemma integral_inj n a b : integral n a -> integral n b -> a = b.
Proof.
  unfold integral. intros -> H. apply (f_equal Qnum) in H. exact H.
Qed.

Lemma holds_inj cfg k a b : holds cfg k a -> holds cfg k b -> a = b.
Proof.
  intros (n & Hn & Ia) (n' & Hn' & Ib).
  rewrite Hn in Hn'. injection Hn' as <-. exact (integral_inj n a b Ia Ib).
Qed.

(** ** The stored values and the quotients *)

Lemma stored_shared_buffers_le os w tm ecs :
  0 <= select w (tm / 1024 / 4) (tm / 1024 / 4) (tm / 1024 / 4)
         (tm / 1024 / 16) (tm / 1024 / 4) ->
  select w (tm / 1024 / 4) (tm / 1024 / 4) (tm / 1024 / 4)
    (tm / 1024 / 16) (tm / 1024 / 4) <= ecs ->
  stored_shared_buffers os w tm <= nearest_double ecs.
Proof.
  intros H0 Hle. unfold stored_shared_buffers.
  set (s := select w _ _ _ _ _) in *.
  pose proof (nearest_double_mono s ecs (conj H0 Hle)) as Hmono.
  destruct (String.eqb os "windows"); cbn [andb]; [|exact Hmono].
  destruct (Z.ltb_spec 524288 (nearest_double s)); lia.
Qed.

Lemma stored_shared_buffers_exact os w tm :
  0 <= tm < 2 ^ 63 ->
  stored_shared_buffers os w tm = Spec.shared_buffers os w tm.
Proof.
  intros Hb. unfold stored_shared_buffers, Spec.shared_buffers, Spec.memKB.
  rewrite nearest_double_small; [reflexivity|].
  change (2 ^ 63) with 9223372036854775808 in Hb.
  change (2 ^ 53) with 9007199254740992.
  destruct w; cbn [select]; div_lia.
Qed.

(** * The properties of the tuning rules *)

(** C1. For every workload type, every OS type, every max_connections and
    every total memory of at least 256 MiB (and below 2^1024 bytes),
    shared_buffers <= effective_cache_size.  Each is its quotient as a
    double (shared_buffers clamped to 524288 KB on Windows); below 2^63
    bytes the double is the quotient itself: floor(memKB/4),
    floor(memKB/16) for desktop, and floor(memKB*3/4), floor(memKB/4) for
    desktop. *)
Theorem shared_buffers_le_effective_cache_size
    (v : Q) (os : string) (w : workload) (tm : Z) (mc : option Z) :
  268435456 <= tm < 2 ^ 1024 ->
  exists out cfg sb ecs,
    postgres_config v os (workload_name w) tm mc = (out, Return cfg)
    /\ cfg !! "shared_buffers" = Some sb
    /\ cfg !! "effective_cache_size" = Some ecs
    /\ le sb ecs = true
    /\ integral sb (stored_shared_buffers os w tm)
    /\ integral ecs (nearest_double (Spec.effective_cache_size w tm))
    /\ (tm < 2 ^ 63 ->
        integral sb (Spec.shared_buffers os w tm)
        /\ integral ecs (Spec.effective_cache_size w tm)).
Proof.
  intros [Hm _].
  destruct (postgres_config_run v os w tm mc)
    as (out & cfg & Hrun & _ & Hk & _).
  destruct (Hk Hm) as ((sb & Hsb & Isb) & (ecs & Hecs & Iecs) & _).
  exists out, cfg, sb, ecs.
  split; [exact Hrun|]. split; [exact Hsb|]. split; [exact Hecs|].
  split; [|split; [exact Isb|split; [exact Iecs|]]].
  - rewrite (le_integral _ _ _ _ Isb Iecs). apply Z.leb_le.
    apply stored_shared_buffers_le.
    + unfold Spec.effective_cache_size, Spec.memKB.
      destruct w; cbn [select]; div_lia.
    + unfold Spec.effective_cache_size, Spec.memKB.
      destruct w; cbn [select]; div_lia.
  - intros Hb.
    rewrite (stored_shared_buffers_exact os w tm) in Isb by lia.
    rewrite nearest_double_small in Iecs; [split; assumption|].
    unfold Spec.effective_cache_size, Spec.memKB.
    change (2 ^ 63) with 9223372036854775808 in Hb.
    change (2 ^ 53) with 9007199254740992.
    destruct w; cbn [select]; div_lia.
Qed.

Lemma shared_buffers_le_effective_cache_size_witness :
  exists out cfg sb ecs,
    postgres_config (96 # 10) "linux" "web" 1073741824 None
    = (out, Return cfg)
    /\ cfg !! "shared_buffers" = Some sb
    /\ cfg !! "effective_cache_size" = Some ecs
    /\ le sb ecs = true
    /\ integral sb 262144
    /\ integral ecs 786432.
Proof.
  destruct (shared_buffers_le_effective_cache_size
              (96 # 10) "linux" Web 1073741824 None)
    as (out & cfg & sb & ecs & Hrun & Hsb & Hecs & Hle & _ & _ & Hex).
  { split; [lia | reflexivity]. }
  destruct Hex as (Isb & Iecs); [reflexivity|].
  exists out, cfg, sb, ecs.
  split; [exact Hrun|]. split; [exact Hsb|]. split; [exact Hecs|].
  split; [exact Hle|]. split; [exact Isb | exact Iecs].
Defined.

(** At 2^67 + 4096 bytes floor(memKB/4) is 2^55 + 1, which is no double:
    shared_buffers is 2^55. *)
Lemma shared_buffers_rounded_counterexample :
  exists out cfg,
    postgres_config (96 # 10) "linux" "web" 147573952589676417024 None
    = (out, Return cfg)
    /\ holds cfg "shared_buffers" 36028797018963968
    /\ Spec.shared_buffers "linux" Web 147573952589676417024
       = 36028797018963969
    /\ ~ holds cfg "shared_buffers"
          (Spec.shared_buffers "linux" Web 147573952589676417024).
Proof.
  destruct (postgres_config_run (96 # 10) "linux" Web
              147573952589676417024 None)
    as (out & cfg & Hrun & _ & Hk & _).
  destruct Hk as (Hsb & _); [discriminate|].
  exists out, cfg. split; [exact Hrun|]. split; [exact Hsb|].
  split; [reflexivity|].
  intros H. pose proof (holds_inj _ _ _ _ Hsb H) as E. discriminate E.
Qed.





(** C4. For every workload type and every input (below 2^1024 bytes),
    wal_buffers is absent exactly when the total memory is below 256 MiB.
    When present it is [wal_rule] of [u] = floor(3 * shared_buffers / 100),
    for the shared_buffers of the configuration: at most 16384 KB, 16384 KB
    whenever 14336 < u < 16384, and u capped at 16384 otherwise. *)
Theorem wal_buffers_rule
    (v : Q) (os : string) (w : workload) (tm : Z) (mc : option Z) :
  tm < 2 ^ 1024 ->
  exists out cfg,
    postgres_config v os (workload_name w) tm mc = (out, Return cfg)
    /\ (cfg !! "wal_buffers" = None <-> tm < 268435456)
    /\ (format_items cfg !! "wal_buffers" = None <-> tm < 268435456)
    /\ (268435456 <= tm ->
        exists sb wb,
          holds cfg "shared_buffers" sb
          /\ sb = stored_shared_buffers os w tm
          /\ holds cfg "wal_buffers" wb
          /\ wb = wal_rule (3 * sb / 100))
    /\ (forall sb wb,
          holds cfg "shared_buffers" sb -> holds cfg "wal_buffers" wb ->
          wb <= 16384
          /\ (14336 < 3 * sb / 100 < 16384 -> wb = 16384)
          /\ (~ 14336 < 3 * sb / 100 < 16384 ->
              wb = Z.min (3 * sb / 100) 16384)).
Proof.
  intros _.
  destruct (postgres_config_run v os w tm mc)
    as (out & cfg & Hrun & _ & Hhigh & Hlow).
  exists out, cfg. split; [exact Hrun|].
  rewrite lookup_format_items.
  destruct (Z.le_gt_cases 268435456 tm) as [Hm|Hm].
  - destruct (Hhigh Hm) as (Hsb & _ & _ & _ & Hwb).
    pose proof Hwb as (n & Hn & _). rewrite Hn. simpl.
    split; [split; [discriminate | lia]|].
    split; [split; [discriminate | lia]|].
    split; [intros _; eauto 6|].
    intros sb wb Hsb' Hwb'.
    rewrite (holds_inj _ _ _ _ Hsb' Hsb), (holds_inj _ _ _ _ Hwb' Hwb).
    unfold wal_rule.
    generalize (3 * stored_shared_buffers os w tm / 100). intros u.
    destruct (Z.ltb_spec 14336 (Z.min u 16384));
      destruct (Z.ltb_spec (Z.min u 16384) 16384); cbn [andb]; lia.
  - destruct (Hlow Hm) as (_ & _ & _ & _ & _ & Hwb). rewrite Hwb. simpl.
    split; [tauto|]. split; [tauto|]. split; [lia|].
    intros sb wb _ (n & Hn & _). rewrite Hwb in Hn. discriminate.
Qed.

Lemma wal_buffers_rule_witness :
  exists out cfg,
    postgres_config (93 # 10) "windows" "dw" 68719476736 (Some 50)
    = (out, Return cfg)
    /\ holds cfg "shared_buffers" 524288
    /\ holds cfg "wal_buffers" 16384
    /\ 14336 < 3 * 524288 / 100 < 16384.
Proof.
  destruct (wal_buffers_rule (93 # 10) "windows" Dw 68719476736 (Some 50))
    as (out & cfg & Hrun & _ & _ & Hex & Hall); [reflexivity|].
  destruct Hex as (sb & wb & Hsb & Esb & Hwb & _); [lia|].
  change (stored_shared_buffers "windows" Dw 68719476736) with 524288 in Esb.
  subst sb.
  destruct (Hall 524288 wb Hsb Hwb) as (_ & Hwin & _).
  assert (Hu : 14336 < 3 * 524288 / 100 < 16384) by (split; reflexivity).
  rewrite (Hwin Hu) in Hwb.
  exists out, cfg.
  split; [exact Hrun|]. split; [exact Hsb|]. split; [exact Hwb | exact Hu].
Defined.

(** On Windows with 64 GiB, shared_buffers is 524288 KB and 3% of it is
    15728 KB, yet wal_buffers is 16384 KB: it is not min(15728, 16384). *)
Lemma wal_buffers_round_up_counterexample :
  exists out cfg,
    postgres_config (93 # 10) "windows" "dw" 68719476736 (Some 50)
    = (out, Return cfg)
    /\ holds cfg "shared_buffers" 524288
    /\ holds cfg "wal_buffers" 16384
    /\ 16384 <> Z.min (3 * 524288 / 100) 16384.
Proof.
  destruct (postgres_config_run (93 # 10) "windows" Dw 68719476736 (Some 50))
    as (out & cfg & Hrun & _ & Hk & _).
  destruct Hk as (Hsb & _ & _ & _ & Hwb); [discriminate|].
  exists out, cfg.
  split; [exact Hrun|]. split; [exact Hsb|]. split; [exact Hwb|]. discriminate.
Qed.




(** ** format_value on integral values *)





Lemma int_Float v : int (Float (inject_Z v)) = Int v.
Proof. unfold int, inject_Z. cbn [Qnum Qden]. rewrite Z.quot_1_r. reflexivity. Qed.





(** ** kernel_settings *)

Lemma int_floor_Int z : int (floor (Int z)) = Int (nearest_double z).
Proof. rewrite floor_Int. apply int_Float. Qed.

Lemma int_mul_floor_Int z k :
  Z.abs k <= 2 ^ 53 ->
  int (mul (floor (Int z)) (Int k)) = Int (nearest_double z * k).
Proof.
  intros Hk. rewrite floor_Int. unfold int, mul.
  rewrite (to_float_small k Hk).
  unfold to_float, Qmult, inject_Z. cbn [Qnum Qden].
  rewrite Z.quot_1_r. reflexivity.
Qed.

(** C7. For every version, OS type and total memory, [kernel_settings]
    returns the empty mapping exactly when the OS type is windows or the
    version is above 9.3; otherwise (below 2^1024 bytes in absolute value)
    it returns the two keys kernel.shmall, the double nearest to
    floor(bytes / 8192), and kernel.shmmax = shmall * 4096, both plain
    integers.  Below 2^66 bytes in absolute value shmall is
    floor(bytes / 8192) itself. *)
Theorem kernel_settings_rule (v : Q) (os ty : string) (tm : Z) :
  (kernel_settings v os ty tm = ∅ <-> os = "windows" \/ (93 # 10 < v)%Q)
  /\ (os <> "windows" -> (v <= 93 # 10)%Q -> Z.abs tm < 2 ^ 1024 ->
      kernel_settings v os ty tm
      = {[ "kernel.shmmax" := Int (nearest_double (tm / 8192) * 4096);
           "kernel.shmall" := Int (nearest_double (tm / 8192)) ]}
      /\ (Z.abs tm < 2 ^ 66 ->
          kernel_settings v os ty tm
          = {[ "kernel.shmmax" := Int (tm / 8192 * 4096);
               "kernel.shmall" := Int (tm / 8192) ]})).
Proof.
  unfold kernel_settings, gt. cbv zeta.
  rewrite div_Int, int_floor_Int, int_mul_floor_Int
    by (apply Z.leb_le; reflexivity).
  destruct (String.eqb_spec os "windows") as [->|Hos]; cbn [orb].
  - split; [split; auto|]. intros H. contradiction.
  - destruct (lt (Float (93 # 10)) (Float v)) eqn:Hv.
    + apply lt_Float in Hv. split; [split; auto|].
      intros _ Hle. apply Qlt_not_le in Hv. contradiction.
    + apply lt_Float_false in Hv. split.
      * split.
        -- intros H. exfalso. apply (insert_non_empty _ _ _ H).
        -- intros [H|H]; [contradiction|].
           apply Qlt_not_le in H. contradiction.
      * intros _ _ _. split; [reflexivity|]. intros Hb.
        rewrite nearest_double_small; [reflexivity|].
        change (2 ^ 66) with 73786976294838206464 in Hb.
        change (2 ^ 53) with 9007199254740992. div_lia.
Qed.

Lemma kernel_settings_rule_witness :
  kernel_settings (93 # 10) "linux" "desktop" 134217728
  = {[ "kernel.shmmax" := Int (134217728 / 8192 * 4096);
       "kernel.shmall" := Int (134217728 / 8192) ]}.
Proof.
  destruct (kernel_settings_rule (93 # 10) "linux" "desktop" 134217728)
    as (_ & H).
  destruct H as (_ & H);
    [discriminate | unfold Qle; simpl; lia | reflexivity |].
  apply H. reflexivity.
Defined.

(** At 2^66 + 8192 bytes floor(bytes / 8192) is 2^53 + 1, which is no
    double: kernel.shmall is 2^53. *)
Lemma kernel_settings_rounded_counterexample :
  kernel_settings (93 # 10) "linux" "web" 73786976294838214656
  = {[ "kernel.shmmax" := Int 36893488147419103232;
       "kernel.shmall" := Int 9007199254740992 ]}
  /\ 73786976294838214656 / 8192 = 9007199254740993.
Proof. split; reflexivity. Qed.

(** C10. The result of [kernel_settings] does not depend on the workload
    type it is given. *)
Theorem kernel_settings_ignores_db_type
    (v : Q) (os t1 t2 : string) (tm : Z) :
  kernel_settings v os t1 tm = kernel_settings v os t2 tm.
Proof. reflexivity. Qed.

(** ** Failure *)



(** * More properties of the code *)

(** ** Rational floors *)

Lemma Qfloor_div_Z (a b : Z) :
  0 < b -> Qfloor (inject_Z a / inject_Z b) = a / b.
Proof.
  intros Hb. destruct b as [|p|p]; try lia.
  rewrite <- Qmake_Qdiv. reflexivity.
Qed.

Lemma Qfloor_sub_div (m s b : Z) :
  0 < b ->
  Qfloor ((inject_Z m - inject_Z s) / inject_Z b) = (m - s) / b.
Proof.
  intros Hb. rewrite <- (Qfloor_div_Z (m - s) b Hb).
  apply Qfloor_comp. unfold Zminus.
  rewrite inject_Z_plus, inject_Z_opp. reflexivity.
Qed.

Lemma Qfloor_sub_div_div (m s b k : Z) :
  0 < b -> 0 < k ->
  Qfloor ((inject_Z m - inject_Z s) / inject_Z b / inject_Z k)
  = (m - s) / b / k.
Proof.
  intros Hb Hk. rewrite Z.div_div by lia.
  rewrite <- (Qfloor_div_Z (m - s) (b * k)) by lia.
  apply Qfloor_comp. unfold Zminus.
  rewrite inject_Z_plus, inject_Z_opp, inject_Z_mult.
  assert (Hb' : ~ (inject_Z b == 0)%Q).
  { unfold Qeq. simpl. lia. }
  assert (Hk' : ~ (inject_Z k == 0)%Q).
  { unfold Qeq. simpl. lia. }
  field. split; assumption.
Qed.

(** [math.floor] of the work_mem quotient, whether shared_buffers is the
    int of the Windows clamp or the float of [math.floor]; every operand
    is below 2^53. *)
Lemma floor_work_mem (x : num) (m s n : Z) :
  integral x s -> 0 <= s <= m -> m <= 2 ^ 53 -> 0 < n <= 9999 ->
  floor (div (sub (Int m) x) (mul (Int n) (Int 3)))
  = Float (inject_Z ((m - s) / (n * 3))).
Proof.
  intros Hx Hs Hm Hn. change (2 ^ 53) with 9007199254740992 in Hm.
  destruct x as [z|q]; unfold integral, val in Hx.
  - apply (f_equal Qnum) in Hx. simpl in Hx. subst z.
    change (sub (Int m) (Int s)) with (Int (m - s)).
    rewrite mul_Int, div_Int, floor_Int_small; [reflexivity|].
    change (2 ^ 53) with 9007199254740992.
    assert (0 <= (m - s) / (n * 3) <= m - s).
    { split; [apply Z.div_pos; lia|].
      apply Z.div_le_upper_bound; nia. }
    lia.
  - subst q. rewrite mul_Int. unfold floor, div, sub.
    rewrite (to_float_small m), (to_float_small (n * 3))
      by (change (2 ^ 53) with 9007199254740992; lia).
    unfold to_float. rewrite Qfloor_sub_div by lia. reflexivity.
Qed.

Lemma floor_work_mem_div (x : num) (m s n k : Z) :
  integral x s -> 0 <= s <= m -> m <= 2 ^ 53 -> 0 < n <= 9999 ->
  0 < k <= 6 ->
  floor (div (div (sub (Int m) x) (mul (Int n) (Int 3))) (Int k))
  = Float (inject_Z ((m - s) / (n * 3) / k)).
Proof.
  intros Hx Hs Hm Hn Hk. change (2 ^ 53) with 9007199254740992 in Hm.
  destruct x as [z|q]; unfold integral, val in Hx.
  - apply (f_equal Qnum) in Hx. simpl in Hx. subst z.
    change (sub (Int m) (Int s)) with (Int (m - s)).
    rewrite mul_Int, !div_Int, floor_Int_small; [reflexivity|].
    change (2 ^ 53) with 9007199254740992.
    assert (0 <= (m - s) / (n * 3) <= m - s).
    { split; [apply Z.div_pos; lia|].
      apply Z.div_le_upper_bound; nia. }
    assert (0 <= (m - s) / (n * 3) / k <= (m - s) / (n * 3)).
    { split; [apply Z.div_pos; lia|].
      apply Z.div_le_upper_bound; nia. }
    lia.
  - subst q. rewrite mul_Int. unfold floor, div, sub.
    rewrite (to_float_small m), (to_float_small (n * 3)),
      (to_float_small k)
      by (change (2 ^ 53) with 9007199254740992; lia).
    unfold to_float. rewrite Qfloor_sub_div_div by lia. reflexivity.
Qed.

Lemma max_connections_range w mc : 1 <= Spec.max_connections w mc <= 9999.
Proof.
  unfold Spec.max_connections, Spec.default_connections.
  destruct mc as [n|]; [|destruct w; simpl; lia].
  destruct (Z.leb_spec 1 n); cbn [andb]; [|destruct w; simpl; lia].
  destruct (Z.leb_spec n 9999); [lia | destruct w; simpl; lia].
Qed.

Lemma shared_buffers_bounds os w tm :
  0 <= tm ->
  0 <= Spec.shared_buffers os w tm
  /\ Spec.shared_buffers os w tm * 4 <= tm / 1024.
Proof.
  intros Hm. unfold Spec.shared_buffers, Spec.memKB.
  destruct w; cbn [select];
    destruct (String.eqb os "windows"); cbn [andb];
    try match goal with
        | |- context [Z.ltb ?a ?b] => destruct (Z.ltb_spec a b)
        end; div_lia.
Qed.

(** [m !! k = ?r] for a key [k] known to differ from the literal keys. *)
Ltac lookup_other :=
  lazymatch goal with
  | |- (<[_ := _]> _) !! _ = _ =>
      apply lookup_insert_skip; [congruence | lookup_other]
  | |- (if _ then _ else _) !! _ = _ =>
      apply lookup_if_same; lookup_other
  | |- ∅ !! _ = _ => apply lookup_empty
  | H : ?m = _ |- ?m !! _ = _ => eapply lookup_eq; [exact H | lookup_other]
  end.

Lemma postgres_config_high_more v os ty tm mc w :
  parse_type ty = Some w ->
  268435456 <= tm < 2 ^ 60 ->
  wp (postgres_config v os ty tm mc)
    (fun out cfg => holds cfg "work_mem" (work_mem_KB os w tm mc)).
Proof.
  intros Hw [Hm Hb].
  assert (Hge : ge (Int tm) (mul (Int 256) CONST_SIZE.MB) = true).
  { rewrite size_256MB, ge_II. apply Z.leb_le, Hm. }
  wp_start. repeat wp_step Hw.
  assert (EKB : memory_in_KB = Int (tm / 1024)) by exact Ememory_in_KB.
  clear Ememory_in_KB.
  eexists. split; [lookup|].
  assert (Hx : integral x (Spec.shared_buffers os w tm)).
  { rewrite <- (stored_shared_buffers_exact os w tm)
      by (change (2 ^ 63) with 9223372036854775808;
          change (2 ^ 60) with 1152921504606846976 in Hb; lia).
    subst x c0 v0 memory_in_KB.
    unfold stored_shared_buffers.
    destruct w; cbn [select]; split_cases. }
  rewrite max_connections_value in Ex0.
  pose proof (max_connections_range w mc) as Hn.
  destruct (shared_buffers_bounds os w tm ltac:(lia)) as (Hs0 & Hs4).
  assert (Hmem : 0 <= tm / 1024 <= 2 ^ 53).
  { change (2 ^ 60) with 1152921504606846976 in Hb.
    change (2 ^ 53) with 9007199254740992. div_lia. }
  subst v2 q x0 memory_in_KB.
  unfold work_mem_KB, Spec.memKB.
  destruct w; cbn [select];
    rewrite ?(floor_work_mem_div x _ _ _ _ Hx), ?(floor_work_mem x _ _ _ Hx),
      ?Z.div_1_r by lia;
    reflexivity.
Qed.

(** No other key is ever set. *)
Lemma postgres_config_other_keys v os ty tm mc w :
  parse_type ty = Some w ->
  wp (postgres_config v os ty tm mc)
    (fun out cfg => forall k, k ∉ known_keys -> cfg !! k = None).
Proof.
  intros Hw.
  destruct (ge (Int tm) (mul (Int 256) CONST_SIZE.MB)) eqn:Hge;
    wp_start; repeat wp_step Hw;
    intros k Hk; unfold known_keys in Hk;
    rewrite !not_elem_of_cons in Hk;
    destruct Hk as (? & ? & ? & ? & ? & ? & ? & ? & ? & ? & ? & _);
    lookup_other.
Qed.

(** Everything known of a run on a known workload type. *)
Lemma postgres_config_all v os w tm mc :
  exists out cfg,
    postgres_config v os (workload_name w) tm mc = (out, Return cfg)
    /\ common_keys v w mc cfg
    /\ (forall k, k ∉ known_keys -> cfg !! k = None)
    /\ (268435456 <= tm ->
        out = (if 107374182400 <=? tm then [high_memory_notice] else [])
        /\ memory_keys os w tm cfg
        /\ (tm < 2 ^ 60 -> holds cfg "work_mem" (work_mem_KB os w tm mc)))
    /\ (tm < 268435456 -> out = [low_memory_notice] /\ no_memory_keys cfg).
Proof.
  pose proof (parse_workload_name w) as Hw.
  destruct (wp_run _ _ (postgres_config_other_keys v os _ tm mc w Hw))
    as (out & cfg & Hrun & Hother).
  exists out, cfg. split; [exact Hrun|].
  destruct (Z.le_gt_cases 268435456 tm) as [Hm|Hm].
  - destruct (wp_run _ _ (postgres_config_high v os _ tm mc w Hw Hm))
      as (out' & cfg' & Hrun' & Hout & Hc & Hk).
    rewrite Hrun in Hrun'. injection Hrun' as <- <-.
    split; [exact Hc|]. split; [exact Hother|]. split; [|lia].
    intros _. split; [exact Hout|]. split; [exact Hk|]. intros Hb.
    destruct (wp_run _ _ (postgres_config_high_more v os _ tm mc w Hw
                            (conj Hm Hb)))
      as (out' & cfg' & Hrun' & Hwm).
    rewrite Hrun in Hrun'. injection Hrun' as <- <-. exact Hwm.
  - destruct (wp_run _ _ (postgres_config_low v os _ tm mc w Hw Hm))
      as (out' & cfg' & Hrun' & Hout & Hc & Hk).
    rewrite Hrun in Hrun'. injection Hrun' as <- <-.
    split; [exact Hc|]. split; [exact Hother|]. split; [lia|].
    intros _. split; assumption.
Qed.




(** ** work_mem *)

(** X1. From 256 MiB on (and below 2^60 bytes), work_mem is
    floor((memKB - shared_buffers) / (max_connections * 3)), floored again
    after a division by 2 for dw and mixed and by 6 for desktop, for the
    shared_buffers and the max_connections of the same configuration. *)
Theorem work_mem_value
    (v : Q) (os : string) (w : workload) (tm : Z) (mc : option Z) :
  268435456 <= tm < 2 ^ 60 ->
  exists out cfg sb n,
    postgres_config v os (workload_name w) tm mc = (out, Return cfg)
    /\ holds cfg "shared_buffers" sb
    /\ sb = Spec.shared_buffers os w tm
    /\ cfg !! "max_connections" = Some (Int n)
    /\ n = Spec.max_connections w mc
    /\ holds cfg "work_mem"
         ((tm / 1024 - sb) / (n * 3) / select w 1 1 2 6 2).
Proof.
  intros [Hm Hb].
  destruct (postgres_config_all v os w tm mc)
    as (out & cfg & Hrun & (Hmc & _) & _ & Hhigh & _).
  destruct (Hhigh Hm) as (_ & (Hsb & _) & Hwm).
  exists out, cfg, (Spec.shared_buffers os w tm), (Spec.max_connections w mc).
  split; [exact Hrun|]. split; [|split; [reflexivity|]].
  - rewrite <- (stored_shared_buffers_exact os w tm); [exact Hsb|].
    change (2 ^ 63) with 9223372036854775808.
    change (2 ^ 60) with 1152921504606846976 in Hb. lia.
  - split; [exact Hmc|]. split; [reflexivity|]. exact (Hwm Hb).
Qed.

Lemma work_mem_value_witness :
  exists out cfg,
    postgres_config (96 # 10) "linux" "desktop" 8589934592 (Some 10)
    = (out, Return cfg)
    /\ holds cfg "shared_buffers" 524288
    /\ cfg !! "max_connections" = Some (Int 10)
    /\ holds cfg "work_mem" 43690.
Proof.
  destruct (work_mem_value (96 # 10) "linux" Desktop 8589934592 (Some 10))
    as (out & cfg & sb & n & Hrun & Hsb & -> & Hmc & -> & Hwm).
  { split; [lia | reflexivity]. }
  exists out, cfg.
  split; [exact Hrun|]. split; [exact Hsb|]. split; [exact Hmc | exact Hwm].
Defined.

(** X2. The margin of the comment above work_mem: from 256 MiB on (and
    below 2^60 bytes) work_mem is not negative, and work_mem for three
    times max_connections, together with shared_buffers, fits in the
    memory. *)
Theorem work_mem_margin
    (v : Q) (os : string) (w : workload) (tm : Z) (mc : option Z) :
  268435456 <= tm < 2 ^ 60 ->
  exists out cfg sb n wm,
    postgres_config v os (workload_name w) tm mc = (out, Return cfg)
    /\ holds cfg "shared_buffers" sb
    /\ cfg !! "max_connections" = Some (Int n)
    /\ holds cfg "work_mem" wm
    /\ 0 <= wm
    /\ wm * (n * 3) + sb <= tm / 1024.
Proof.
  intros [Hm Hb].
  destruct (postgres_config_all v os w tm mc)
    as (out & cfg & Hrun & (Hmc & _) & _ & Hhigh & _).
  destruct (Hhigh Hm) as (_ & (Hsb & _) & Hwm).
  exists out, cfg, (Spec.shared_buffers os w tm), (Spec.max_connections w mc),
    (work_mem_KB os w tm mc).
  split; [exact Hrun|]. split.
  { rewrite <- (stored_shared_buffers_exact os w tm); [exact Hsb|].
    change (2 ^ 63) with 9223372036854775808.
    change (2 ^ 60) with 1152921504606846976 in Hb. lia. }
  split; [exact Hmc|]. split; [exact (Hwm Hb)|].
  pose proof (max_connections_range w mc) as Hn.
  destruct (shared_buffers_bounds os w tm ltac:(lia)) as (Hs0 & Hs4).
  unfold work_mem_KB, Spec.memKB.
  set (a := tm / 1024 - Spec.shared_buffers os w tm).
  set (b := Spec.max_connections w mc * 3).
  assert (Ha : 0 <= a) by (unfold a; div_lia).
  assert (Hb' : 0 < b) by (unfold b; lia).
  assert (Hk : 0 < select w 1 1 2 6 2) by (destruct w; simpl; lia).
  assert (H1 : 0 <= a / b) by (apply Z.div_pos; lia).
  assert (H2 : a / b / select w 1 1 2 6 2 <= a / b).
  { apply Z.div_le_upper_bound; [lia|]. nia. }
  assert (H3 : b * (a / b) <= a) by (apply Z.mul_div_le; lia).
  split; [apply Z.div_pos; lia|].
  assert (a / b / select w 1 1 2 6 2 * b <= a) by nia.
  unfold a in *. lia.
Qed.

Lemma work_mem_margin_witness :
  exists out cfg sb n wm,
    postgres_config (96 # 10) "windows" "mixed" 4294967296 (Some 40)
    = (out, Return cfg)
    /\ holds cfg "shared_buffers" sb
    /\ cfg !! "max_connections" = Some (Int n)
    /\ holds cfg "work_mem" wm
    /\ 0 <= wm
    /\ wm * (n * 3) + sb <= 4294967296 / 1024.
Proof.
  apply (work_mem_margin (96 # 10) "windows" Mixed 4294967296 (Some 40)).
  split; [lia | reflexivity].
Defined.

(** ** The keys of the result *)


(** ** The notice *)


(** ** The tables of the two targets *)


(** ** The WAL sizes *)



(** ** More memory *)

Lemma wal_rule_mono u u' : u <= u' -> wal_rule u <= wal_rule u'.
Proof.
  intros H. unfold wal_rule.
  destruct (Z.ltb_spec 14336 (Z.min u 16384));
    destruct (Z.ltb_spec (Z.min u 16384) 16384);
    destruct (Z.ltb_spec 14336 (Z.min u' 16384));
    destruct (Z.ltb_spec (Z.min u' 16384) 16384); cbn [andb]; lia.
Qed.

Lemma stored_shared_buffers_mono os w tm tm' :
  0 <= tm <= tm' ->
  stored_shared_buffers os w tm <= stored_shared_buffers os w tm'.
Proof.
  intros H. unfold stored_shared_buffers.
  set (s := select w _ _ _ _ _).
  set (s' := select w (tm' / 1024 / 4) _ _ _ _).
  assert (Hs : 0 <= s <= s').
  { unfold s, s'. destruct w; cbn [select]; div_lia. }
  pose proof (nearest_double_mono s s' Hs) as Hmono.
  destruct (String.eqb os "windows"); cbn [andb]; [|exact Hmono].
  destruct (Z.ltb_spec 524288 (nearest_double s));
    destruct (Z.ltb_spec 524288 (nearest_double s')); lia.
Qed.

(** X7. More memory never lowers a memory size: between two runs for the
    same workload type and OS type, from 256 MiB on (and below 2^1024
    bytes), shared_buffers, effective_cache_size, maintenance_work_mem
    and wal_buffers of the larger memory are at least those of the
    smaller one. *)
Theorem memory_sizes_monotone
    (v v' : Q) (os : string) (w : workload) (tm tm' : Z)
    (mc mc' : option Z) :
  268435456 <= tm -> tm <= tm' -> tm' < 2 ^ 1024 ->
  exists out cfg out' cfg',
    postgres_config v os (workload_name w) tm mc = (out, Return cfg)
    /\ postgres_config v' os (workload_name w) tm' mc' = (out', Return cfg')
    /\ (exists a b, holds cfg "shared_buffers" a
                    /\ holds cfg' "shared_buffers" b /\ a <= b)
    /\ (exists a b, holds cfg "effective_cache_size" a
                    /\ holds cfg' "effective_cache_size" b /\ a <= b)
    /\ (exists a b, holds cfg "maintenance_work_mem" a
                    /\ holds cfg' "maintenance_work_mem" b /\ a <= b)
    /\ (exists a b, holds cfg "wal_buffers" a
                    /\ holds cfg' "wal_buffers" b /\ a <= b).
Proof.
  intros Hm Hle _.
  destruct (postgres_config_run v os w tm mc)
    as (out & cfg & Hrun & _ & Hk & _).
  destruct (postgres_config_run v' os w tm' mc')
    as (out' & cfg' & Hrun' & _ & Hk' & _).
  destruct (Hk Hm) as (Hsb & Hecs & _ & Hmwm & Hwb).
  destruct (Hk' ltac:(lia)) as (Hsb' & Hecs' & _ & Hmwm' & Hwb').
  exists out, cfg, out', cfg'.
  split; [exact Hrun|]. split; [exact Hrun'|].
  pose proof (stored_shared_buffers_mono os w tm tm' ltac:(lia)) as Hs.
  split; [|split; [|split]]; eexists _, _; (split; [eassumption|]);
    (split; [eassumption|]).
  - exact Hs.
  - apply nearest_double_mono.
    unfold Spec.effective_cache_size, Spec.memKB.
    destruct w; cbn [select]; div_lia.
  - unfold Spec.maintenance_work_mem, Spec.memKB.
    destruct w; cbn [select]; div_lia.
  - apply wal_rule_mono. div_lia.
Qed.

Lemma memory_sizes_monotone_witness :
  exists out cfg out' cfg',
    postgres_config (96 # 10) "linux" "web" 1073741824 None
    = (out, Return cfg)
    /\ postgres_config (93 # 10) "linux" "web" 2147483648 (Some 10)
       = (out', Return cfg')
    /\ (exists a b, holds cfg "shared_buffers" a
                    /\ holds cfg' "shared_buffers" b /\ a <= b)
    /\ (exists a b, holds cfg "effective_cache_size" a
                    /\ holds cfg' "effective_cache_size" b /\ a <= b)
    /\ (exists a b, holds cfg "maintenance_work_mem" a
                    /\ holds cfg' "maintenance_work_mem" b /\ a <= b)
    /\ (exists a b, holds cfg "wal_buffers" a
                    /\ holds cfg' "wal_buffers" b /\ a <= b).
Proof.
  apply (memory_sizes_monotone (96 # 10) (93 # 10) "linux" Web
           1073741824 2147483648 None (Some 10));
    [lia | lia | reflexivity].
Defined.
